(** * MozTrap (tcmui): list-action dispatch, finder columns, cycles view

    A shallow embedding of

    - [ui/tcmui/manage/decorators.py]  ([handle_actions]),
    - [ui/tcmui/testexecution/views.py] ([cycles]),

    together with the column adjacency of the hierarchical finder, whose
    implementation ([cc.view.lists.finder]) is only known through
    [tests/view/lists/test_finder.py].

    Python code that calls collaborators (the record collection, the record's
    methods, the message queue, the wrapped view) is written in a small
    state-and-exception monad over a [World] that logs every collaborator call
    in order. *)

From Stdlib Require Import String ZArith List Bool.
From stdpp Require Import base option list strings gmap.

Local Open Scope string_scope.
Local Open Scope Z_scope.

(** ** The part of Django the code relies on *)

(** [request.auth]: the credentials the REST client is called with. *)
Inductive Auth : Type :=
| Credentials (userid : string).

(** [request.user]; only [has_perm] matters here. *)
Record User : Type := mkUser {
  username : string;
  has_perm : string -> bool
}.

(** An [HttpRequest].  [POST] lists the form fields in the order in which
    [request.POST.iteritems()] yields them; [META] holds the [HTTP_*]
    headers. *)
Record HttpRequest : Type := mkRequest {
  method : string;
  path : string;
  query_string : string;
  POST : list (string * string);
  META : list (string * string);
  auth : Auth;
  user : option User
}.

(** [request.user = u] *)
Definition with_user (u : option User) (request : HttpRequest) : HttpRequest :=
  {| method := method request; path := path request;
     query_string := query_string request; POST := POST request;
     META := META request; auth := auth request; user := u |}.

(** The same request sent with other headers. *)
Definition with_META (headers : list (string * string))
    (request : HttpRequest) : HttpRequest :=
  {| method := method request; path := path request;
     query_string := query_string request; POST := POST request;
     META := headers; auth := auth request; user := user request |}.

(** [HttpRequest.get_full_path]: the path, plus ["?"] and the query string
    when there is one. *)
Definition get_full_path (request : HttpRequest) : string :=
  if String.eqb (query_string request) ""
  then path request
  else path request +:+ "?" +:+ query_string request.

Fixpoint assoc (k : string) (l : list (string * string)) : option string :=
  match l with
  | [] => None
  | (k', v) :: l' => if String.eqb k k' then Some v else assoc k l'
  end.

(** [HttpRequest.is_ajax]. *)
Definition is_ajax (request : HttpRequest) : bool :=
  match assoc "HTTP_X_REQUESTED_WITH" (META request) with
  | Some v => String.eqb v "XMLHttpRequest"
  | None => false
  end.

(** An [HttpResponse]: status, the [Location] header, and the request a view
    chose to attach to its response (the test views do
    [response.request = req]). *)
Record HttpResponse : Type := mkResponse {
  status_code : Z;
  location : option string;
  seen_request : option HttpRequest
}.

(** [django.shortcuts.redirect(to)] with a URL: a temporary redirect. *)
Definition redirect (to : string) : HttpResponse :=
  {| status_code := 302; location := Some to; seen_request := None |}.

(** Python exceptions: the class name and the message. *)
Record Exn : Type := mkExn {
  exn_class : string;
  exn_message : string
}.

(** ** Collaborators of the dispatcher *)

(** How a call ends. *)
Inductive Completion (A : Type) : Type :=
| Returns (a : A)
| Raises (e : Exn).
Arguments Returns {A} a.
Arguments Raises {A} e.

(** One call after another: the second is made with what the first
    returned, and not at all when the first raised. *)
Definition and_then {A B} (c : Completion A) (k : A -> Completion B)
  : Completion B :=
  match c with
  | Returns a => k a
  | Raises e => Raises e
  end.

Declare Scope call_scope.
Delimit Scope call_scope with call.
Notation "'let!' x ':=' c 'in' k" := (and_then c (fun x => k))
  (at level 10, x name, c at level 100, k at level 200) : call_scope.

(** A record of the collection.  [unicode] is [unicode(obj)]; [Conflict] is
    the class [obj.Conflict], given by its instance test; [methods name] is
    [None] when the record has no attribute [name] and otherwise tells how
    the call [getattr(obj, name)()] ends. *)
Record Obj : Type := mkObj {
  unicode : string;
  Conflict : Exn -> bool;
  methods : string -> option (Completion unit)
}.

(** The record collection ([list_model]). *)
Record ListModel : Type := mkListModel {
  get_by_id : string -> Auth -> Completion Obj
}.

(** ** The world: collaborator calls, in order, and the message queue *)

(** A call of the lookup or of a record's method. *)
Inductive Event : Type :=
| GetById (obj_id : string) (a : Auth)
| MethodCall (obj : Obj) (name : string).

(** [calls] is the log of collaborator calls, oldest first; [messages] holds
    the texts queued on the request by [messages.error], oldest first. *)
Record World : Type := mkWorld {
  calls : list Event;
  messages : list string
}.

Definition empty_world : World := {| calls := []; messages := [] |}.

(** A Python computation: it ends by returning or by raising, and leaves a
    world behind. *)
Definition M (A : Type) : Type := World -> Completion A * World.

Definition ret {A} (a : A) : M A := fun w => (Returns a, w).

Definition raise {A} (e : Exn) : M A := fun w => (Raises e, w).

Definition bind {A B} (m : M A) (k : A -> M B) : M B :=
  fun w =>
    match m w with
    | (Returns a, w') => k a w'
    | (Raises e, w') => (Raises e, w')
    end.

(** [try: m  except <handler>] *)
Definition try_except {A} (m : M A) (handler : Exn -> M A) : M A :=
  fun w =>
    match m w with
    | (Returns a, w') => (Returns a, w')
    | (Raises e, w') => handler e w'
    end.

Declare Scope py_scope.
Delimit Scope py_scope with py.
Notation "x <- m ;; k" := (bind m (fun x => k))
  (at level 100, m at next level, right associativity) : py_scope.
Notation "m ;;; k" := (bind m (fun _ => k))
  (at level 100, right associativity) : py_scope.

Definition log (ev : Event) : M unit :=
  fun w => (Returns tt, {| calls := calls w ++ [ev]; messages := messages w |}).

(** [list_model.get_by_id(obj_id, auth=auth)] *)
Definition call_get_by_id (list_model : ListModel) (obj_id : string) (a : Auth)
  : M Obj :=
  (log (GetById obj_id a) ;;;
   match get_by_id list_model obj_id a with
   | Returns obj => ret obj
   | Raises e => raise e
   end)%py.

Definition AttributeError (name : string) : Exn :=
  {| exn_class := "AttributeError"; exn_message := name |}.

(** [getattr(obj, name)()] *)
Definition call_method (obj : Obj) (name : string) : M unit :=
  match methods obj name with
  | None => raise (AttributeError name)
  | Some c =>
      (log (MethodCall obj name) ;;;
       match c with
       | Returns _ => ret tt
       | Raises e => raise e
       end)%py
  end.

(** [messages.error(request, text)] *)
Definition messages_error (text : string) : M unit :=
  fun w => (Returns tt, {| calls := calls w; messages := messages w ++ [text] |}).

(** [s[n:]] *)
Fixpoint slice_from (n : nat) (s : string) : string :=
  match n, s with
  | O, _ => s
  | S n', String _ s' => slice_from n' s'
  | S _, EmptyString => EmptyString
  end.

(** ** [ui/tcmui/manage/decorators.py] *)

Module Decorators.

Section HandleActions.

(** The positional and keyword arguments passed on to the view. *)
Context {Args : Type}.

(** [errors.error_message] of [tcmui.core.errors]. *)
Variable error_message : Exn -> string -> string.

Definition View : Type := HttpRequest -> Args -> M HttpResponse.

(** [[(k, v) for k, v in request.POST.iteritems()
      if k.startswith("action-")]] *)
Definition action_items (post : list (string * string))
  : list (string * string) :=
  List.filter (fun kv => String.prefix "action-" (fst kv)) post.

(** [action in allowed_actions] *)
Definition allowed (action : string) (allowed_actions : list string) : bool :=
  existsb (String.eqb action) allowed_actions.

(** The body of the [if request.method == "POST":] block up to the
    computation of [action_taken]. *)
Definition take_action (list_model : ListModel)
    (allowed_actions : list string) (request : HttpRequest) : M bool :=
  match action_items (POST request) with
  | [] => ret false
  | (action, obj_id) :: _ =>
      let action := slice_from (String.length "action-") action in
      if allowed action allowed_actions then
        (obj <- call_get_by_id list_model obj_id (auth request) ;;
         try_except (call_method obj action)
           (fun e =>
              if Conflict obj e
              then messages_error (error_message e (unicode obj))
              else raise e) ;;;
         ret true)%py
      else ret false
  end.

Definition handle_actions (list_model : ListModel)
    (allowed_actions : list string) (fall_through : bool)
    (view_func : View) : View :=
  fun request args =>
    if String.eqb (method request) "POST" then
      (action_taken <- take_action list_model allowed_actions request ;;
       if action_taken || negb fall_through
       then ret (redirect (get_full_path request))
       else view_func request args)%py
    else view_func request args.

End HandleActions.

(** *** Vocabulary for the payload *)

(** No key of the payload starts with ["action-"]. *)
Definition no_action_key (post : list (string * string)) : Prop :=
  Forall (fun kv => String.prefix "action-" (fst kv) = false) post.

(** The first key of the payload that starts with ["action-"] is
    ["action-" ++ name], and its value is [obj_id]. *)
Definition first_action (post : list (string * string))
    (name obj_id : string) : Prop :=
  exists before after,
    post = (before ++ ("action-" +:+ name, obj_id) :: after)%list /\
    no_action_key before.

(** No ["action-"] key of the payload names an allowed action. *)
Definition no_recognized_action (allowed_actions : list string)
    (post : list (string * string)) : Prop :=
  Forall (fun kv =>
            String.prefix "action-" (fst kv) = true ->
            ~ In (slice_from (String.length "action-") (fst kv))
                 allowed_actions) post.

(** The payload has no first ["action-"] key that names an allowed
    action. *)
Definition no_allowed_action (allowed_actions : list string)
    (post : list (string * string)) : Prop :=
  no_action_key post \/
  exists name obj_id,
    first_action post name obj_id /\ ~ In name allowed_actions.

(** [getattr(obj, name)()] raises [e]: the method does, or there is no such
    attribute and [e] is the [AttributeError]. *)
Definition call_raises (obj : Obj) (name : string) (e : Exn) : Prop :=
  methods obj name = Some (Raises e) \/
  (methods obj name = None /\ e = AttributeError name).

End Decorators.


(** ** The hierarchical finder ([cc.view.lists.finder]) *)

Module Finder.

(** Modelled from the spec: the [Column] declaration of
    [cc.view.lists.finder], which is not among the sources; the fields are
    those of the data model (name, template, record source, link field,
    goto target). *)
Record Column : Type := mkColumn {
  name : string;
  template : string;
  record_source : string;
  link_field : option string;
  goto_target : option string
}.

(** Modelled from the spec: the [Finder] class of [cc.view.lists.finder],
    which is not among the sources: a template base and the ordered list of
    column declarations. *)
Record Finder : Type := mkFinder {
  template_base : string;
  columns : list Column
}.

Definition column_names (f : Finder) : list string :=
  map name (columns f).

(** Modelled from the spec: [columnsByName] of the missing [Finder]. *)
Definition columns_by_name (f : Finder) : gmap string Column :=
  list_to_map (map (fun c => (name c, c)) (columns f)).

(** Modelled from the spec: [parentColumns] of the missing [Finder], a
    mapping from a child's name to its parent's name; the parent of a
    column is the one declared immediately before it. *)
Definition parent_columns (f : Finder) : gmap string string :=
  list_to_map (zip (tail (column_names f)) (column_names f)).

(** Modelled from the spec: [childColumns] of the missing [Finder], a
    mapping from a parent's name to its child's name; the child of a column
    is the one declared immediately after it. *)
Definition child_columns (f : Finder) : gmap string string :=
  list_to_map (zip (column_names f) (tail (column_names f))).

(** [p] is declared immediately before [c]. *)
Definition adjacent (names : list string) (p c : string) : Prop :=
  exists i : nat, names !! i = Some p /\ names !! (S i) = Some c.

End Finder.

(** ** [ui/tcmui/testexecution/views.py] *)

Module Views.

Section Cycles.

(** The remote objects of [tcmui.products.models] and of
    [tcmui.testexecution.models]: a product, a list of test cycles. *)
Context {Product TestCycleList : Type}.

(** Values of keyword arguments and of template context entries. *)
Inductive Value : Type :=
| VStr (s : string)
| VInt (z : Z)
| VProduct (p : Product)
| VCycles (l : TestCycleList).

(** [django.template.response.TemplateResponse(request, template, context)] *)
Record TemplateResponse : Type := mkTemplateResponse {
  response_request : HttpRequest;
  template_name : string;
  context : gmap string Value
}.

(** What a view of this module answers: a rendered template, or whatever
    else a decorator decides to answer instead. *)
Inductive Response : Type :=
| Template (t : TemplateResponse)
| Other (r : HttpResponse).

(** A view with the one URL argument [product_id]. *)
Definition View : Type := HttpRequest -> string -> Completion Response.

(** [testcyclestatus.ACTIVE] of [tcmui.static]. *)
Variable ACTIVE : Z.

(** [Product.get(url, auth=...)] of [tcmui.products.models]. *)
Variable Product_get : string -> Auth -> Completion Product.

(** [TestCycleList.get(auth=...)] of [tcmui.testexecution.models]. *)
Variable TestCycleList_get : Auth -> Completion TestCycleList.

(** The [filter] method of the list, called with keyword arguments. *)
Variable ListObject_filter :
  gmap string Value -> TestCycleList -> Completion TestCycleList.

(** [login_required] of [tcmui.users.decorators]. *)
Variable login_required : View -> View.

Definition cycles : View :=
  login_required
    (fun request product_id =>
       (let! product :=
          Product_get ("products/" +:+ product_id) (auth request) in
        let! everything := TestCycleList_get (auth request) in
        let! cycles :=
          ListObject_filter
            {[ "productId" := VStr product_id;
               "testCycleStatusId" := VInt ACTIVE ]}
            everything in
        Returns
          (Template
             {| response_request := request;
                template_name := "test/cycles.html";
                context := {[ "product" := VProduct product;
                              "cycles" := VCycles cycles ]} |}))%call).

End Cycles.

Arguments Value : clear implicits.
Arguments TemplateResponse : clear implicits.
Arguments Response : clear implicits.
Arguments View : clear implicits.

End Views.

(** ** The requests, mocks and declarations of the tests *)

Module Fixtures.

(** The credentials every test request carries. *)
Definition the_auth : Auth := Credentials "tester".

(** A stand-in for [errors.error_message]: the message of the exception,
    then the record it is about. *)
Definition error_message (e : Exn) (about : string) : string :=
  exn_message e +:+ ": " +:+ about.

(** The mock record: it has one method, [doit], ending as [c] says. *)
Definition instance (c : Completion unit) : Obj :=
  {| unicode := "record 3";
     Conflict := fun e => String.eqb (exn_class e) "Conflict";
     methods := fun n => if String.eqb n "doit" then Some c else None |}.

(** The mock collection: every lookup returns the mock record. *)
Definition mock_model (c : Completion unit) : ListModel :=
  {| get_by_id := fun _ _ => Returns (instance c) |}.

(** The exception of a lookup that finds no record. *)
Definition DoesNotExist : Exn :=
  {| exn_class := "DoesNotExist"; exn_message := "" |}.

(** The mock collection of [test_object_does_not_exist]. *)
Definition empty_model : ListModel :=
  {| get_by_id := fun _ _ => Raises DoesNotExist |}.

(** The test view: an empty 200 response carrying the request it saw. *)
Definition view : @Decorators.View unit :=
  fun req _ =>
    ret {| status_code := 200; location := None; seen_request := Some req |}.

(** [RequestFactory().post(path, data, headers)] *)
Definition post (p q : string) (data headers : list (string * string))
    (u : option User) : HttpRequest :=
  {| method := "POST"; path := p; query_string := q; POST := data;
     META := headers; auth := the_auth; user := u |}.

(** The user of [test_no_permission]: [has_perm] always answers [False]. *)
Definition powerless : User :=
  {| username := "mock"; has_perm := fun _ => false |}.

(** The header an AJAX request carries. *)
Definition ajax : list (string * string) :=
  [("HTTP_X_REQUESTED_WITH", "XMLHttpRequest")].

(** An exception that the mock record's [Conflict] class accepts. *)
Definition conflict : Exn :=
  {| exn_class := "Conflict"; exn_message := "changing.used.entity" |}.

(** An exception that it does not accept. *)
Definition value_error : Exn :=
  {| exn_class := "ValueError"; exn_message := "bad value" |}.

(** The three columns of [AFinder] in [tests/view/lists/test_finder.py]. *)
Definition AFinder : Finder.Finder :=
  {| Finder.template_base := "a/finder";
     Finder.columns :=
       [ Finder.mkColumn "top" "_tops.html" "TopList" (Some "theTop")
           (Some "list_of_mids");
         Finder.mkColumn "mid" "_mids.html" "MidList" (Some "theMid") None;
         Finder.mkColumn "fin" "_fins.html" "FinList" (Some "theFin") None ]
  |}.

(** A product of the examples: the resource it stands for and the
    credentials it was fetched with. *)
Record Product : Type := mkProduct {
  product_url : string;
  product_auth : Auth
}.

(** A test cycle of the examples. *)
Record TestCycle : Type := mkTestCycle {
  cycle_name : string;
  productId : string;
  testCycleStatusId : Z
}.

(** A login gate: anonymous requests are sent to the login page. *)
Definition login_gate (view_func : Views.View Product (list TestCycle))
  : Views.View Product (list TestCycle) :=
  fun request product_id =>
    match user request with
    | Some _ => view_func request product_id
    | None => Returns (Views.Other (redirect "/account/login/"))
    end.

(** A logged-in user. *)
Definition tester : User :=
  {| username := "tester"; has_perm := fun _ => true |}.

(** A product fetch that always answers. *)
Definition product_get (url : string) (a : Auth) : Completion Product :=
  Returns {| product_url := url; product_auth := a |}.

(** Test cycles of two products, in several states; 2 stands for ACTIVE. *)
Definition all_cycles (a : Auth) : Completion (list TestCycle) :=
  Returns [ mkTestCycle "alpha" "7" 2;
            mkTestCycle "beta" "7" 1;
            mkTestCycle "gamma" "8" 2;
            mkTestCycle "delta" "7" 2 ].

(** A list filter for the examples: it keeps the cycles whose product and
    status are the ones asked for. *)
Definition select (kwargs : gmap string (Views.Value Product (list TestCycle)))
    (l : list TestCycle) : Completion (list TestCycle) :=
  match kwargs !! "productId", kwargs !! "testCycleStatusId" with
  | Some (Views.VStr p), Some (Views.VInt st) =>
      Returns (List.filter
                 (fun c => String.eqb (productId c) p
                           && Z.eqb (testCycleStatusId c) st) l)
  | _, _ => Raises {| exn_class := "TypeError"; exn_message := "filter" |}
  end.

(** A request of the cycles page of product 7. *)
Definition cycles_page (u : option User) : HttpRequest :=
  {| method := "GET"; path := "/products/7/cycles/"; query_string := "";
     POST := []; META := []; auth := the_auth; user := u |}.

End Fixtures.

(** * Properties of the list-action dispatcher *)

Import Decorators.

(** ** The payload scan *)

Lemma prefix_action_append (name : string) :
  String.prefix "action-" ("action-" +:+ name) = true.
Proof. cbn. by destruct name. Qed.

Lemma slice_from_action_append (name : string) :
  slice_from (String.length "action-") ("action-" +:+ name) = name.
Proof. reflexivity. Qed.

Lemma action_items_no_action (post : list (string * string)) :
  no_action_key post -> action_items post = [].
Proof.
  unfold no_action_key, action_items.
  induction 1 as [| kv post Hkv _ IH]; [reflexivity |].
  cbn [List.filter]. by rewrite Hkv.
Qed.

Lemma action_items_first (post : list (string * string)) (name obj_id : string) :
  first_action post name obj_id ->
  exists rest, action_items post = ("action-" +:+ name, obj_id) :: rest.
Proof.
  intros (before & after & -> & Hbefore).
  exists (action_items after).
  assert (Hsplit : forall l1 l2, action_items (l1 ++ l2)%list
                  = (action_items l1 ++ action_items l2)%list)
    by (intros; apply List.filter_app).
  rewrite Hsplit, (action_items_no_action before Hbefore).
  cbn [app]. unfold action_items at 1. cbn [List.filter fst].
  by rewrite prefix_action_append.
Qed.

Lemma allowed_In (action : string) (allowed_actions : list string) :
  allowed action allowed_actions = true <-> In action allowed_actions.
Proof.
  unfold allowed. rewrite existsb_exists. split.
  - intros (x & Hx & Heq). apply String.eqb_eq in Heq. by subst.
  - intros Hin. exists action. split; [done | apply String.eqb_refl].
Qed.

Lemma allowed_not_In (action : string) (allowed_actions : list string) :
  ~ In action allowed_actions -> allowed action allowed_actions = false.
Proof.
  intros Hnot. destruct (allowed action allowed_actions) eqn:E; [| done].
  by apply allowed_In in E.
Qed.

Section Dispatch.

Context {Args : Type}.
Variable error_message : Exn -> string -> string.
Variable list_model : ListModel.
Variable allowed_actions : list string.

Implicit Types (view_func : @View Args) (request : HttpRequest)
  (args : Args) (w : World).

(** With no ["action-"] key no action is taken and the world is left
    alone. *)
Lemma take_action_none request w :
  no_action_key (POST request) ->
  take_action error_message list_model allowed_actions request w
  = (Returns false, w).
Proof.
  intros H. unfold take_action. by rewrite (action_items_no_action _ H).
Qed.

(** The same holds when the first ["action-"] key names an action that is
    not allowed. *)
Lemma take_action_unknown request w name obj_id :
  first_action (POST request) name obj_id ->
  ~ In name allowed_actions ->
  take_action error_message list_model allowed_actions request w
  = (Returns false, w).
Proof.
  intros Hfirst Hnot. unfold take_action.
  destruct (action_items_first _ _ _ Hfirst) as [rest ->].
  rewrite slice_from_action_append. by rewrite (allowed_not_In _ _ Hnot).
Qed.

Lemma take_action_unrecognized request w :
  no_recognized_action allowed_actions (POST request) ->
  take_action error_message list_model allowed_actions request w
  = (Returns false, w).
Proof.
  intros H. unfold take_action, action_items.
  destruct (List.filter _ (POST request)) as [| [k v] rest] eqn:E;
    [reflexivity |].
  assert (Hin : In (k, v) (List.filter
            (fun kv => String.prefix "action-" kv.1) (POST request)))
    by (rewrite E; left; reflexivity).
  apply List.filter_In in Hin as [Hin Hpre].
  unfold no_recognized_action in H. rewrite List.Forall_forall in H.
  specialize (H _ Hin Hpre). cbn [fst] in H.
  by rewrite (allowed_not_In _ _ H).
Qed.

(** An allowed action: the lookup, then the method call inside the
    [try], then [action_taken = True]. *)
Lemma take_action_allowed request w name obj_id :
  first_action (POST request) name obj_id ->
  In name allowed_actions ->
  take_action error_message list_model allowed_actions request w
  = (obj <- call_get_by_id list_model obj_id (auth request) ;;
     try_except (call_method obj name)
       (fun e =>
          if Conflict obj e
          then messages_error (error_message e (unicode obj))
          else raise e) ;;;
     ret true)%py w.
Proof.
  intros Hfirst Hin. unfold take_action.
  destruct (action_items_first _ _ _ Hfirst) as [rest ->].
  rewrite slice_from_action_append.
  apply allowed_In in Hin. by rewrite Hin.
Qed.

(** An allowed action on a record that is found and whose method returns, or
    raises the record's [Conflict]: one lookup, one call, a message when the
    method raised, and the redirect. *)
Lemma handle_actions_action_taken
    fall_through view_func request args w name obj_id obj c :
  method request = "POST" ->
  first_action (POST request) name obj_id ->
  In name allowed_actions ->
  get_by_id list_model obj_id (auth request) = Returns obj ->
  methods obj name = Some c ->
  (forall e, c = Raises e -> Conflict obj e = true) ->
  handle_actions error_message list_model allowed_actions fall_through
    view_func request args w
  = (Returns (redirect (get_full_path request)),
     {| calls := calls w ++ [GetById obj_id (auth request);
                             MethodCall obj name];
        messages := match c with
                    | Returns _ => messages w
                    | Raises e =>
                        messages w ++ [error_message e (unicode obj)]
                    end |}).
Proof.
  intros Hpost Hfirst Hin Hget Hmeth Hc.
  unfold handle_actions. rewrite Hpost, String.eqb_refl.
  unfold bind at 1. rewrite (take_action_allowed _ _ _ _ Hfirst Hin).
  unfold call_get_by_id, call_method, bind, try_except, log, ret, raise,
    messages_error.
  rewrite Hget, Hmeth.
  destruct c as [[] | e]; [| rewrite (Hc e eq_refl)];
    cbn; by rewrite <- app_assoc.
Qed.

(** When the lookup of an allowed action raises, the dispatcher raises the
    same exception, right after the lookup. *)
Lemma handle_actions_lookup_raises
    fall_through view_func request args w name obj_id e :
  method request = "POST" ->
  first_action (POST request) name obj_id ->
  In name allowed_actions ->
  get_by_id list_model obj_id (auth request) = Raises e ->
  handle_actions error_message list_model allowed_actions fall_through
    view_func request args w
  = (Raises e,
     {| calls := calls w ++ [GetById obj_id (auth request)];
        messages := messages w |}).
Proof.
  intros Hpost Hfirst Hin Hget.
  unfold handle_actions. rewrite Hpost, String.eqb_refl.
  unfold bind at 1. rewrite (take_action_allowed _ _ _ _ Hfirst Hin).
  unfold call_get_by_id, bind, log, raise. by rewrite Hget.
Qed.

(** C1: a POST whose first ["action-"] key is ["action-" ++ name] with
    value [obj_id], [name] being allowed: the collection's lookup is called
    exactly once, with [obj_id] and the request's [auth]; the method [name]
    is called exactly once, without arguments, on the record the lookup
    returned; then, the request not being an AJAX one, the answer is a 302
    redirect to the request's path with its query string.  (The lookup
    returns a record, the record has the method, and the method returns or
    raises its record's [Conflict].) *)
Theorem handle_actions_action_then_redirect
    fall_through view_func request args w name obj_id obj c :
  method request = "POST" ->
  first_action (POST request) name obj_id ->
  In name allowed_actions ->
  is_ajax request = false ->
  get_by_id list_model obj_id (auth request) = Returns obj ->
  methods obj name = Some c ->
  (forall e, c = Raises e -> Conflict obj e = true) ->
  exists response w',
    handle_actions error_message list_model allowed_actions fall_through
      view_func request args w = (Returns response, w') /\
    calls w' = (calls w ++ [GetById obj_id (auth request);
                            MethodCall obj name])%list /\
    status_code response = 302 /\
    location response = Some (get_full_path request).
Proof.
  intros Hpost Hfirst Hin _ Hget Hmeth Hc.
  eexists _, _. split.
  - by apply (handle_actions_action_taken fall_through view_func request
                args w name obj_id obj c).
  - done.
Qed.

(** C5: when the method of an allowed action raises [e]: if [e] is a
    [Conflict] of the record, exactly one message,
    [error_message e (unicode obj)], is appended to the message queue, the
    action counts as taken (the redirect follows even with [fall_through])
    and nothing is raised; any other [e] is raised to the caller, and the
    message queue is as it was. *)
Theorem handle_actions_conflict_or_propagate
    fall_through view_func request args w name obj_id obj e :
  method request = "POST" ->
  first_action (POST request) name obj_id ->
  In name allowed_actions ->
  get_by_id list_model obj_id (auth request) = Returns obj ->
  methods obj name = Some (Raises e) ->
  exists w',
    handle_actions error_message list_model allowed_actions fall_through
      view_func request args w
    = (if Conflict obj e
       then Returns (redirect (get_full_path request))
       else Raises e, w') /\
    messages w' = (if Conflict obj e
                   then messages w ++ [error_message e (unicode obj)]
                   else messages w)%list /\
    calls w' = (calls w ++ [GetById obj_id (auth request);
                            MethodCall obj name])%list.
Proof.
  intros Hpost Hfirst Hin Hget Hmeth.
  unfold handle_actions. rewrite Hpost, String.eqb_refl.
  unfold bind at 1. rewrite (take_action_allowed _ _ _ _ Hfirst Hin).
  unfold call_get_by_id, call_method, bind, try_except, log, ret, raise,
    messages_error.
  rewrite Hget, Hmeth. cbn.
  destruct (Conflict obj e); eexists; cbn;
    (split; [reflexivity | split; [reflexivity | by rewrite <- app_assoc]]).
Qed.

(** C6: a POST that is not an AJAX one and whose payload has no ["action-"]
    key, or whose first ["action-"] key names an action that is not
    allowed: without [fall_through] the answer is the redirect to the path
    with its query string, and the world is untouched (no lookup, no method
    call, no message); the two cases give the same answer. *)
Theorem handle_actions_no_action_redirects view_func request args w :
  method request = "POST" ->
  is_ajax request = false ->
  no_action_key (POST request) \/
  (exists name obj_id, first_action (POST request) name obj_id /\
                       ~ In name allowed_actions) ->
  handle_actions error_message list_model allowed_actions false
    view_func request args w
  = (Returns (redirect (get_full_path request)), w) /\
  status_code (redirect (get_full_path request)) = 302 /\
  location (redirect (get_full_path request))
  = Some (get_full_path request).
Proof.
  intros Hpost _ Hcase. split; [| done].
  unfold handle_actions. rewrite Hpost, String.eqb_refl.
  unfold bind.
  destruct Hcase as [Hnone | (name & obj_id & Hfirst & Hnot)].
  - by rewrite take_action_none.
  - by rewrite (take_action_unknown _ _ _ _ Hfirst Hnot).
Qed.

(** C7: a POST that is not an AJAX one and has no ["action-"] key naming an
    allowed action, with [fall_through]: the world is untouched by the
    dispatcher (no lookup) and the wrapped view is called with the very
    request and arguments, so it sees the method POST and the whole
    payload; the answer is the view's. *)
Theorem handle_actions_falls_through view_func request args w :
  method request = "POST" ->
  is_ajax request = false ->
  no_recognized_action allowed_actions (POST request) ->
  handle_actions error_message list_model allowed_actions true
    view_func request args w
  = view_func request args w.
Proof.
  intros Hpost _ Hnone.
  unfold handle_actions. rewrite Hpost, String.eqb_refl.
  unfold bind. by rewrite take_action_unrecognized.
Qed.

(** C8: a request whose method is not POST goes to the wrapped view as it
    is, whatever its payload: the dispatcher does not look at the payload,
    calls neither the lookup nor a method, and answers what the view
    answers. *)
Theorem handle_actions_ignores_non_POST
    fall_through view_func request args w :
  method request <> "POST" ->
  handle_actions error_message list_model allowed_actions fall_through
    view_func request args w
  = view_func request args w.
Proof.
  intros Hmethod. unfold handle_actions.
  destruct (String.eqb_spec (method request) "POST") as [Heq | _];
    [by destruct Hmethod | reflexivity].
Qed.


(** C3, as the code has it: the dispatcher never consults the headers of
    the request.  A POST in which an action is taken, or in which no allowed
    action is found while [fall_through] is off, is answered with the
    redirect to the path with its query string whatever the headers are, the
    one of an AJAX request included; the outcome is the same for all
    headers, and the wrapped view is not called. *)
Theorem handle_actions_redirects_whatever_headers
    fall_through view_func request args w :
  method request = "POST" ->
  (exists name obj_id obj c,
      first_action (POST request) name obj_id /\
      In name allowed_actions /\
      get_by_id list_model obj_id (auth request) = Returns obj /\
      methods obj name = Some c /\
      (forall e, c = Raises e -> Conflict obj e = true)) \/
  (fall_through = false /\
   no_allowed_action allowed_actions (POST request)) ->
  exists w',
    forall headers,
      handle_actions error_message list_model allowed_actions fall_through
        view_func (with_META headers request) args w
      = (Returns (redirect (get_full_path request)), w').
Proof.
  intros Hpost
    [(name & obj_id & obj & c & Hfirst & Hin & Hget & Hmeth & Hc)
    | [-> Hnone]].
  - exists {| calls := calls w ++ [GetById obj_id (auth request);
                                   MethodCall obj name];
              messages := match c with
                          | Returns _ => messages w
                          | Raises e =>
                              messages w ++ [error_message e (unicode obj)]
                          end |}.
    intros headers.
    by apply (handle_actions_action_taken fall_through view_func
                (with_META headers request) args w name obj_id obj c).
  - exists w. intros headers. unfold handle_actions.
    change (method (with_META headers request)) with (method request).
    rewrite Hpost, String.eqb_refl. unfold bind.
    change (take_action error_message list_model allowed_actions
              (with_META headers request) w)
      with (take_action error_message list_model allowed_actions request w).
    destruct Hnone as [Hnone | (name & obj_id & Hfirst & Hnot)].
    + by rewrite take_action_none.
    + by rewrite (take_action_unknown _ _ _ _ Hfirst Hnot).
Qed.

(** C4, as the code has it: the lookup is not inside the [try].  When the
    lookup of an allowed action raises (the record does not exist), that
    exception leaves the dispatcher right after the one lookup, with or
    without [fall_through]: no method is called, no message is queued, and
    there is neither a redirect nor a call of the wrapped view. *)
Theorem handle_actions_lookup_failure_propagates
    fall_through view_func request args w name obj_id e :
  method request = "POST" ->
  first_action (POST request) name obj_id ->
  In name allowed_actions ->
  get_by_id list_model obj_id (auth request) = Raises e ->
  handle_actions error_message list_model allowed_actions fall_through
    view_func request args w
  = (Raises e,
     {| calls := calls w ++ [GetById obj_id (auth request)];
        messages := messages w |}) /\
  (forall response w',
      handle_actions error_message list_model allowed_actions fall_through
        view_func request args w
      <> (Returns response, w')).
Proof.
  intros Hpost Hfirst Hin Hget.
  rewrite (handle_actions_lookup_raises fall_through view_func request args
             w name obj_id e Hpost Hfirst Hin Hget).
  split; [reflexivity | discriminate].
Qed.

End Dispatch.

(** ** The dispatcher on the requests of the tests *)

Lemma handle_actions_action_then_redirect_witness :
  exists response w',
    handle_actions Fixtures.error_message (Fixtures.mock_model (Returns tt))
      ["doit"] false Fixtures.view
      (Fixtures.post "/the/url" "filter=value" [("action-doit", "3")] [] None)
      tt empty_world = (Returns response, w') /\
    calls w' = [GetById "3" Fixtures.the_auth;
                MethodCall (Fixtures.instance (Returns tt)) "doit"] /\
    status_code response = 302 /\
    location response = Some "/the/url?filter=value".
Proof.
  apply (handle_actions_action_then_redirect Fixtures.error_message
           (Fixtures.mock_model (Returns tt)) ["doit"] false Fixtures.view
           (Fixtures.post "/the/url" "filter=value" [("action-doit", "3")]
              [] None)
           tt empty_world "doit" "3" (Fixtures.instance (Returns tt))
           (Returns tt)).
  - reflexivity.
  - exists [], []. split; [reflexivity | constructor].
  - left. reflexivity.
  - reflexivity.
  - reflexivity.
  - reflexivity.
  - intros e He. discriminate He.
Defined.

Lemma handle_actions_conflict_or_propagate_witness :
  (exists w',
     handle_actions Fixtures.error_message
       (Fixtures.mock_model (Raises Fixtures.conflict)) ["doit"] true
       Fixtures.view
       (Fixtures.post "/the/url" "" [("action-doit", "3")] [] None)
       tt empty_world = (Returns (redirect "/the/url"), w') /\
     messages w' = ["changing.used.entity: record 3"] /\
     calls w' = [GetById "3" Fixtures.the_auth;
                 MethodCall (Fixtures.instance (Raises Fixtures.conflict))
                   "doit"]) /\
  (exists w',
     handle_actions Fixtures.error_message
       (Fixtures.mock_model (Raises Fixtures.value_error)) ["doit"] true
       Fixtures.view
       (Fixtures.post "/the/url" "" [("action-doit", "3")] [] None)
       tt empty_world = (Raises Fixtures.value_error, w') /\
     messages w' = [] /\
     calls w' = [GetById "3" Fixtures.the_auth;
                 MethodCall (Fixtures.instance (Raises Fixtures.value_error))
                   "doit"]).
Proof.
  split.
  - apply (handle_actions_conflict_or_propagate Fixtures.error_message
             (Fixtures.mock_model (Raises Fixtures.conflict)) ["doit"] true
             Fixtures.view
             (Fixtures.post "/the/url" "" [("action-doit", "3")] [] None)
             tt empty_world "doit" "3"
             (Fixtures.instance (Raises Fixtures.conflict))
             Fixtures.conflict).
    + reflexivity.
    + exists [], []. split; [reflexivity | constructor].
    + left. reflexivity.
    + reflexivity.
    + reflexivity.
  - apply (handle_actions_conflict_or_propagate Fixtures.error_message
             (Fixtures.mock_model (Raises Fixtures.value_error)) ["doit"] true
             Fixtures.view
             (Fixtures.post "/the/url" "" [("action-doit", "3")] [] None)
             tt empty_world "doit" "3"
             (Fixtures.instance (Raises Fixtures.value_error))
             Fixtures.value_error).
    + reflexivity.
    + exists [], []. split; [reflexivity | constructor].
    + left. reflexivity.
    + reflexivity.
    + reflexivity.
Defined.

Lemma handle_actions_no_action_redirects_witness :
  handle_actions Fixtures.error_message (Fixtures.mock_model (Returns tt))
    ["doit"] false Fixtures.view
    (Fixtures.post "/the/url" "" [("action-bad", "3")] [] None)
    tt empty_world
  = (Returns (redirect "/the/url"), empty_world) /\
  handle_actions Fixtures.error_message (Fixtures.mock_model (Returns tt))
    ["doit"] false Fixtures.view
    (Fixtures.post "/the/url" "" [] [] None)
    tt empty_world
  = (Returns (redirect "/the/url"), empty_world).
Proof.
  split.
  - apply (handle_actions_no_action_redirects Fixtures.error_message
             (Fixtures.mock_model (Returns tt)) ["doit"] Fixtures.view
             (Fixtures.post "/the/url" "" [("action-bad", "3")] [] None)
             tt empty_world).
    + reflexivity.
    + reflexivity.
    + right. exists "bad", "3". split.
      * exists [], []. split; [reflexivity | constructor].
      * intros [H | []]. discriminate H.
  - apply (handle_actions_no_action_redirects Fixtures.error_message
             (Fixtures.mock_model (Returns tt)) ["doit"] Fixtures.view
             (Fixtures.post "/the/url" "" [] [] None)
             tt empty_world).
    + reflexivity.
    + reflexivity.
    + left. constructor.
Defined.

Lemma handle_actions_falls_through_witness :
  handle_actions Fixtures.error_message (Fixtures.mock_model (Returns tt))
    ["doit"] true Fixtures.view
    (Fixtures.post "/the/url" "" [("other", "thing")] [] None)
    tt empty_world
  = (Returns {| status_code := 200; location := None;
                seen_request :=
                  Some {| method := "POST"; path := "/the/url";
                          query_string := "";
                          POST := [("other", "thing")]; META := [];
                          auth := Fixtures.the_auth; user := None |} |},
     empty_world).
Proof.
  apply (handle_actions_falls_through Fixtures.error_message
           (Fixtures.mock_model (Returns tt)) ["doit"] Fixtures.view
           (Fixtures.post "/the/url" "" [("other", "thing")] [] None)
           tt empty_world).
  - reflexivity.
  - reflexivity.
  - constructor; [| constructor]. intros H. discriminate H.
Defined.

Lemma handle_actions_ignores_non_POST_witness :
  handle_actions Fixtures.error_message (Fixtures.mock_model (Returns tt))
    ["doit"] false Fixtures.view
    {| method := "GET"; path := "/the/url"; query_string := "";
       POST := [("action-doit", "3")]; META := [];
       auth := Fixtures.the_auth; user := None |}
    tt empty_world
  = (Returns {| status_code := 200; location := None;
                seen_request :=
                  Some {| method := "GET"; path := "/the/url";
                          query_string := "";
                          POST := [("action-doit", "3")]; META := [];
                          auth := Fixtures.the_auth; user := None |} |},
     empty_world).
Proof.
  apply (handle_actions_ignores_non_POST Fixtures.error_message
           (Fixtures.mock_model (Returns tt)) ["doit"] false Fixtures.view
           {| method := "GET"; path := "/the/url"; query_string := "";
              POST := [("action-doit", "3")]; META := [];
              auth := Fixtures.the_auth; user := None |}
           tt empty_world).
  intros H. discriminate H.
Defined.



Lemma handle_actions_redirects_whatever_headers_witness :
  exists w',
    forall headers,
      handle_actions Fixtures.error_message
        (Fixtures.mock_model (Returns tt)) ["doit"] false Fixtures.view
        (with_META headers
           (Fixtures.post "/the/url" "filter=value" [("action-doit", "3")]
              [] None))
        tt empty_world
      = (Returns (redirect "/the/url?filter=value"), w').
Proof.
  apply (handle_actions_redirects_whatever_headers Fixtures.error_message
           (Fixtures.mock_model (Returns tt)) ["doit"] false Fixtures.view
           (Fixtures.post "/the/url" "filter=value" [("action-doit", "3")]
              [] None)
           tt empty_world).
  - reflexivity.
  - left. exists "doit", "3", (Fixtures.instance (Returns tt)), (Returns tt).
    split; [exists [], []; split; [reflexivity | constructor] |].
    split; [left; reflexivity |].
    split; [reflexivity |]. split; [reflexivity |].
    intros e He. discriminate He.
Defined.

(** On the AJAX POST of [test_ajax_fall_through_method] the answer is not a
    200 of the wrapped view, called with method GET and an empty payload. *)
Lemma handle_actions_ajax_counterexample :
  is_ajax (Fixtures.post "/the/url" "filter=value" [("action-doit", "3")]
             Fixtures.ajax None) = true /\
  ~ (exists response seen w',
        handle_actions Fixtures.error_message
          (Fixtures.mock_model (Returns tt)) ["doit"] false Fixtures.view
          (Fixtures.post "/the/url" "filter=value" [("action-doit", "3")]
             Fixtures.ajax None)
          tt empty_world = (Returns response, w') /\
        status_code response = 200 /\
        seen_request response = Some seen /\
        method seen = "GET" /\
        POST seen = []).
Proof.
  split; [reflexivity |].
  intros (response & seen & w' & Hrun & Hstatus & _).
  vm_compute in Hrun. inversion Hrun; subst. discriminate Hstatus.
Qed.

Lemma handle_actions_lookup_failure_propagates_witness :
  handle_actions Fixtures.error_message Fixtures.empty_model
    ["doit"] false Fixtures.view
    (Fixtures.post "/the/url" "" [("action-doit", "3")] [] None)
    tt empty_world
  = (Raises Fixtures.DoesNotExist,
     {| calls := [GetById "3" Fixtures.the_auth]; messages := [] |}) /\
  (forall response w',
      handle_actions Fixtures.error_message Fixtures.empty_model
        ["doit"] false Fixtures.view
        (Fixtures.post "/the/url" "" [("action-doit", "3")] [] None)
        tt empty_world
      <> (Returns response, w')).
Proof.
  apply (handle_actions_lookup_failure_propagates Fixtures.error_message
           Fixtures.empty_model ["doit"] false Fixtures.view
           (Fixtures.post "/the/url" "" [("action-doit", "3")] [] None)
           tt empty_world "doit" "3" Fixtures.DoesNotExist).
  - reflexivity.
  - exists [], []. split; [reflexivity | constructor].
  - left. reflexivity.
  - reflexivity.
Defined.

(** On the POST of [test_object_does_not_exist], where the lookup raises,
    the dispatcher does not answer as it does to the same POST without
    action: it answers nothing, the exception leaves it. *)
Lemma handle_actions_not_found_counterexample :
  handle_actions Fixtures.error_message Fixtures.empty_model
    ["doit"] false Fixtures.view
    (Fixtures.post "/the/url" "" [] [] None)
    tt empty_world
  = (Returns (redirect "/the/url"), empty_world) /\
  ~ (exists response w',
        handle_actions Fixtures.error_message Fixtures.empty_model
          ["doit"] false Fixtures.view
          (Fixtures.post "/the/url" "" [("action-doit", "3")] [] None)
          tt empty_world = (Returns response, w')).
Proof.
  split; [reflexivity |].
  intros (response & w' & Hrun). vm_compute in Hrun. discriminate Hrun.
Qed.

(** * Properties of the finder's column maps *)

Section FinderColumns.

Import Finder.

(** A map built from two lists side by side, the keys without repetition,
    relates exactly the entries that share a position. *)
Lemma list_to_map_zip_lookup (keys vals : list string) (k v : string) :
  NoDup keys ->
  (list_to_map (zip keys vals) : gmap string string) !! k = Some v <->
  exists i : nat, keys !! i = Some k /\ vals !! i = Some v.
Proof.
  intros Hnodup. rewrite <- elem_of_list_to_map'.
  - rewrite elem_of_lookup_zip_with. split.
    + intros (i & x & y & Heq & Hx & Hy). inversion Heq; subst. eauto.
    + intros (i & Hk & Hv). exists i, k, v. eauto.
  - intros v' H1 H2.
    apply elem_of_lookup_zip_with in H1 as (i & x & y & Heq & Hx & Hy).
    apply elem_of_lookup_zip_with in H2 as (j & x' & y' & Heq' & Hx' & Hy').
    inversion Heq; inversion Heq'; subst.
    assert (i = j) by (eapply NoDup_lookup; eauto). subst. congruence.
Qed.

Lemma NoDup_tail (names : list string) : NoDup names -> NoDup (tail names).
Proof. destruct names; [done |]. intros H. by apply NoDup_cons in H as [_ H]. Qed.

Lemma parent_columns_lookup (f : Finder) (c p : string) :
  NoDup (column_names f) ->
  parent_columns f !! c = Some p <-> adjacent (column_names f) p c.
Proof.
  intros Hnodup. unfold parent_columns, adjacent.
  rewrite (list_to_map_zip_lookup _ _ _ _ (NoDup_tail _ Hnodup)).
  split; intros (i & H1 & H2); exists i; rewrite lookup_tail in *; done.
Qed.

Lemma child_columns_lookup (f : Finder) (p c : string) :
  NoDup (column_names f) ->
  child_columns f !! p = Some c <-> adjacent (column_names f) p c.
Proof.
  intros Hnodup. unfold child_columns, adjacent.
  rewrite (list_to_map_zip_lookup _ _ _ _ Hnodup).
  split; intros (i & H1 & H2); exists i; rewrite lookup_tail in *; done.
Qed.

(** C9: the parent and child mappings of a finder follow the order of the
    declaration alone: [p] is the parent of [c], and [c] the child of [p],
    exactly when [p] is declared immediately before [c]; the first column
    has no parent and the last no child; for a declaration of three columns
    [top; mid; fin] the parent mapping is [{mid: top, fin: mid}] and the
    child mapping [{top: mid, mid: fin}].  (Column names are unique.) *)
Theorem finder_columns_follow_declaration_order (f : Finder) :
  NoDup (column_names f) ->
  (forall c p, parent_columns f !! c = Some p
               <-> adjacent (column_names f) p c) /\
  (forall p c, child_columns f !! p = Some c
               <-> adjacent (column_names f) p c) /\
  (forall n, column_names f !! 0%nat = Some n ->
             parent_columns f !! n = None) /\
  (forall n, last (column_names f) = Some n ->
             child_columns f !! n = None) /\
  (forall top mid fin,
      columns f = [top; mid; fin] ->
      parent_columns f = {[ name mid := name top; name fin := name mid ]} /\
      child_columns f = {[ name top := name mid; name mid := name fin ]}).
Proof.
  intros Hnodup. repeat split.
  - by apply parent_columns_lookup.
  - by apply parent_columns_lookup.
  - by apply child_columns_lookup.
  - by apply child_columns_lookup.
  - intros n Hfirst.
    destruct (parent_columns f !! n) as [p |] eqn:E; [| done].
    apply parent_columns_lookup in E as (i & _ & Hi); [| done].
    by pose proof (NoDup_lookup _ _ _ _ Hnodup Hfirst Hi).
  - intros n Hlast.
    destruct (child_columns f !! n) as [c |] eqn:E; [| done].
    apply child_columns_lookup in E as (i & Hi & Hnext); [| done].
    rewrite last_lookup in Hlast.
    pose proof (NoDup_lookup _ _ _ _ Hnodup Hlast Hi) as <-.
    apply lookup_lt_Some in Hnext. lia.
  - unfold parent_columns, column_names. by rewrite H.
  - unfold child_columns, column_names. by rewrite H.
Qed.

End FinderColumns.

Lemma finder_columns_follow_declaration_order_witness :
  Finder.parent_columns Fixtures.AFinder
  = {[ "mid" := "top"; "fin" := "mid" ]} /\
  Finder.child_columns Fixtures.AFinder
  = {[ "top" := "mid"; "mid" := "fin" ]} /\
  Finder.parent_columns Fixtures.AFinder !! "top" = None /\
  Finder.child_columns Fixtures.AFinder !! "fin" = None.
Proof.
  assert (Hnodup : NoDup (Finder.column_names Fixtures.AFinder)).
  { apply (bool_decide_unpack _). vm_compute. reflexivity. }
  destruct (finder_columns_follow_declaration_order Fixtures.AFinder Hnodup)
    as (_ & _ & Hfirst & Hlast & Hthree).
  destruct (Hthree _ _ _ eq_refl) as [Hparent Hchild].
  split; [exact Hparent |]. split; [exact Hchild |].
  split; [apply Hfirst | apply Hlast]; reflexivity.
Defined.

(** * Properties of the cycles view *)

Section CyclesView.

Import Views.

Context {Product TestCycleList : Type}.
Variable ACTIVE : Z.
Variable Product_get : string -> Auth -> Completion Product.
Variable TestCycleList_get : Auth -> Completion TestCycleList.
Variable ListObject_filter :
  gmap string (Value Product TestCycleList) -> TestCycleList ->
  Completion TestCycleList.
Variable login_required :
  View Product TestCycleList -> View Product TestCycleList.


End CyclesView.





(** * Further properties of the dispatcher *)

(** A string that starts with [p] is [p] followed by its slice from
    [len(p)]. *)
Lemma prefix_slice_from (p s : string) :
  String.prefix p s = true -> s = p +:+ slice_from (String.length p) s.
Proof.
  revert s. induction p as [| a p IH]; intros s H; [reflexivity |].
  destruct s as [| b s]; [discriminate H |]. simpl in H |- *.
  change (String a p +:+ ?x) with (String a (p +:+ x)).
  destruct (Ascii.ascii_dec a b) as [-> | _]; [| discriminate H].
  f_equal. by apply IH.
Qed.

(** Every payload either has no ["action-"] key or has a first one. *)
Lemma payload_cases (post : list (string * string)) :
  no_action_key post \/ exists name obj_id, first_action post name obj_id.
Proof.
  induction post as [| [k v] post IH]; [left; constructor |].
  destruct (String.prefix "action-" k) eqn:Hk.
  - right. exists (slice_from (String.length "action-") k), v.
    exists [], post. split; [| constructor].
    cbn [app]. by rewrite <- (prefix_slice_from _ _ Hk).
  - destruct IH as [Hnone | (name & obj_id & before & after & -> & Hbefore)].
    + left. by constructor.
    + right. exists name, obj_id, ((k, v) :: before), after.
      split; [reflexivity | by constructor].
Qed.

Lemma allowed_ext (l1 l2 : list string) :
  (forall a, In a l1 <-> In a l2) ->
  forall a, allowed a l1 = allowed a l2.
Proof.
  intros Hsame a.
  destruct (allowed a l2) eqn:E2.
  - apply allowed_In. apply Hsame. by apply allowed_In.
  - apply allowed_not_In. intros Hin. apply Hsame in Hin.
    apply allowed_In in Hin. congruence.
Qed.

Section DispatchOutcomes.

Context {Args : Type}.
Variable error_message : Exn -> string -> string.
Variable list_model : ListModel.
Variable allowed_actions : list string.

Implicit Types (view_func : @View Args) (request : HttpRequest)
  (args : Args) (w : World).

(** Whether an action is taken: nothing happens without an allowed first
    action; with one, the lookup is made and the rest follows from how the
    lookup and the method end. *)
Lemma take_action_cases request w :
  (no_allowed_action allowed_actions (POST request) /\
   take_action error_message list_model allowed_actions request w
   = (Returns false, w)) \/
  exists name obj_id,
    first_action (POST request) name obj_id /\
    In name allowed_actions /\
    take_action error_message list_model allowed_actions request w
    = (obj <- call_get_by_id list_model obj_id (auth request) ;;
       try_except (call_method obj name)
         (fun e =>
            if Conflict obj e
            then messages_error (error_message e (unicode obj))
            else raise e) ;;;
       ret true)%py w.
Proof.
  destruct (payload_cases (POST request))
    as [Hnone | (name & obj_id & Hfirst)].
  - left. split; [by left | by apply take_action_none].
  - destruct (allowed name allowed_actions) eqn:E.
    + right. exists name, obj_id. apply allowed_In in E.
      split; [done |]. split; [done |]. by apply take_action_allowed.
    + assert (Hnot : ~ In name allowed_actions).
      { intros Hin. apply allowed_In in Hin. congruence. }
      left. split; [right; by exists name, obj_id |].
      by apply (take_action_unknown _ _ _ _ _ name obj_id).
Qed.

(** Runs the lookup, the call and the handler of an allowed action, case by
    case. *)
Ltac run_action :=
  unfold call_get_by_id, call_method, bind, try_except, log, ret, raise,
    messages_error;
  repeat match goal with
         | |- context [get_by_id ?m ?i ?a] =>
             let H := fresh "Hget" in destruct (get_by_id m i a) eqn:H
         | |- context [methods ?o ?n] =>
             let H := fresh "Hmeth" in
             destruct (methods o n) as [[[] |] |] eqn:H
         | |- context [Conflict ?o ?e] =>
             let H := fresh "Hconflict" in destruct (Conflict o e) eqn:H
         end;
  cbn.

(** A POST: the action is taken or not, then comes the choice between the
    redirect and the wrapped view. *)
Lemma handle_actions_POST fall_through view_func request args w :
  method request = "POST" ->
  handle_actions error_message list_model allowed_actions fall_through
    view_func request args w
  = match take_action error_message list_model allowed_actions request w with
    | (Returns action_taken, w') =>
        if action_taken || negb fall_through
        then (Returns (redirect (get_full_path request)), w')
        else view_func request args w'
    | (Raises e, w') => (Raises e, w')
    end.
Proof.
  intros Hpost. unfold handle_actions. rewrite Hpost, String.eqb_refl.
  unfold bind, ret.
  destruct (take_action _ _ _ _ w) as [[taken | e] w']; [| reflexivity].
  by destruct (taken || negb fall_through).
Qed.

(** Splits on the method; leaves the POST case, rewritten with
    [handle_actions_POST]. *)
Ltac by_method request Hpost :=
  destruct (String.eqb_spec (method request) "POST") as [Hpost | ?];
  [ rewrite !(handle_actions_POST _ _ _ _ _ Hpost)
  | left; unfold handle_actions;
    destruct (String.eqb_spec (method request) "POST");
    [contradiction | reflexivity] ].

(** X1: the dispatcher answers in one of three ways only, and each has its
    cases.  The answer of the wrapped view to the very request and
    arguments, in the world as it was: when the method is not POST, or with
    [fall_through] when no allowed action is found.  The redirect to the
    path with its query string: without [fall_through] when no allowed
    action is found, the world being as it was, or when the record of an
    allowed action was found and the call of its method returned or raised a
    [Conflict] of the record.  An exception: the one the lookup of an
    allowed action raised, or the one the call of its method raised and that
    is no [Conflict] of the record. *)
Theorem handle_actions_three_outcomes
    fall_through view_func request args w :
  let outcome :=
    handle_actions error_message list_model allowed_actions fall_through
      view_func request args w in
  (outcome = view_func request args w /\
   (method request <> "POST" \/
    (fall_through = true /\
     no_allowed_action allowed_actions (POST request)))) \/
  (method request = "POST" /\
   fall_through = false /\
   no_allowed_action allowed_actions (POST request) /\
   outcome = (Returns (redirect (get_full_path request)), w)) \/
  (method request = "POST" /\
   exists name obj_id,
     first_action (POST request) name obj_id /\
     In name allowed_actions /\
     ((exists e w',
          get_by_id list_model obj_id (auth request) = Raises e /\
          outcome = (Raises e, w')) \/
      (exists obj w',
          get_by_id list_model obj_id (auth request) = Returns obj /\
          ((methods obj name = Some (Returns tt) /\
            outcome = (Returns (redirect (get_full_path request)), w')) \/
           (exists e,
               call_raises obj name e /\
               ((Conflict obj e = true /\
                 outcome
                 = (Returns (redirect (get_full_path request)), w')) \/
                (Conflict obj e = false /\
                 outcome = (Raises e, w')))))))).
Proof.
  intros outcome. subst outcome.
  destruct (String.eqb_spec (method request) "POST") as [Hpost | Hother].
  - rewrite !(handle_actions_POST _ _ _ _ _ Hpost).
    destruct (take_action_cases request w)
      as [[Hnone ->] | (name & obj_id & Hfirst & Hin & ->)].
    + destruct fall_through; cbn.
      * left. split; [reflexivity | right; by split].
      * right. left. by repeat split.
    + right. right. split; [done |]. exists name, obj_id.
      split; [done |]. split; [done |].
      run_action.
      * right. eexists _, _. split; [reflexivity |]. left. by split.
      * right. eexists _, _. split; [reflexivity |]. right.
        eexists. split; [by left |]. left. by split.
      * right. eexists _, _. split; [reflexivity |]. right.
        eexists. split; [by left |]. right. by split.
      * right. eexists _, _. split; [reflexivity |]. right.
        eexists. split; [by right |]. left. by split.
      * right. eexists _, _. split; [reflexivity |]. right.
        eexists. split; [by right |]. right. by split.
      * left. by eexists _, _.
  - left. split; [| by left]. unfold handle_actions.
    by destruct (String.eqb_spec (method request) "POST").
Qed.

(** X2: without [fall_through] a POST never reaches the wrapped view: the
    outcome is the same whatever the view is, and a response, if there is
    one, is the redirect to the path with its query string. *)
Theorem handle_actions_default_redirects_any_POST
    view_func view_func' request args w :
  method request = "POST" ->
  handle_actions error_message list_model allowed_actions false
    view_func request args w
  = handle_actions error_message list_model allowed_actions false
      view_func' request args w /\
  (forall response w',
      handle_actions error_message list_model allowed_actions false
        view_func request args w = (Returns response, w') ->
      response = redirect (get_full_path request)).
Proof.
  intros Hpost. rewrite !(handle_actions_POST _ _ _ _ _ Hpost).
  destruct (take_action _ _ _ _ w) as [[taken | e] w1].
  - rewrite orb_true_r. split; [reflexivity |].
    intros response w' H. by inversion H.
  - split; [reflexivity |]. intros response w' H. discriminate H.
Qed.


(** X4: what the dispatcher asks of its collaborators: unless the outcome is the
    view's, the world gains no call at all, or the one lookup of the first
    action's id with the request's [auth], or that lookup followed by one
    call of the first action's method on the record the lookup returned; and
    the action is then an allowed one. *)
Theorem handle_actions_calls_only_allowed_action
    fall_through view_func request args w :
  handle_actions error_message list_model allowed_actions fall_through
    view_func request args w
  = view_func request args w \/
  exists result w',
    handle_actions error_message list_model allowed_actions fall_through
      view_func request args w = (result, w') /\
    (calls w' = calls w \/
     exists name obj_id,
       first_action (POST request) name obj_id /\
       In name allowed_actions /\
       (calls w' = (calls w ++ [GetById obj_id (auth request)])%list \/
        exists obj,
          get_by_id list_model obj_id (auth request) = Returns obj /\
          calls w' = (calls w ++ [GetById obj_id (auth request);
                                  MethodCall obj name])%list)).
Proof.
  by_method request Hpost.
  destruct (take_action_cases request w)
    as [[_ ->] | (name & obj_id & Hfirst & Hin & ->)].
  - destruct fall_through; cbn; [by left | right].
    eexists _, _. split; [reflexivity | by left].
  - right. run_action;
      (eexists _, _; split; [reflexivity |]; right;
       exists name, obj_id; split; [done |]; split; [done |];
       cbn; rewrite <- ?app_assoc; cbn [app];
       first [ by left | right; eexists; split; [eassumption | done] ]).
Qed.

(** X5: the message queue: unless the outcome is the view's, the queue is
    left as it was, or it gains exactly one message,
    [error_message e (unicode obj)], where [obj] is the record that the
    lookup of the allowed first action returned and [e] the exception that
    the call of its method raised, a [Conflict] of that record; the outcome
    is then the redirect. *)
Theorem handle_actions_queues_conflicts_only
    fall_through view_func request args w :
  handle_actions error_message list_model allowed_actions fall_through
    view_func request args w
  = view_func request args w \/
  exists result w',
    handle_actions error_message list_model allowed_actions fall_through
      view_func request args w = (result, w') /\
    (messages w' = messages w \/
     exists name obj_id obj e,
       first_action (POST request) name obj_id /\
       In name allowed_actions /\
       get_by_id list_model obj_id (auth request) = Returns obj /\
       call_raises obj name e /\
       Conflict obj e = true /\
       messages w'
       = (messages w ++ [error_message e (unicode obj)])%list /\
       result = Returns (redirect (get_full_path request))).
Proof.
  by_method request Hpost.
  destruct (take_action_cases request w)
    as [[_ ->] | (name & obj_id & Hfirst & Hin & ->)].
  - destruct fall_through; cbn; [by left | right].
    eexists _, _. split; [reflexivity | by left].
  - right. run_action;
      (eexists _, _; split; [reflexivity |]; cbn;
       first [ by left
             | right; exists name, obj_id; eexists _, _;
               split; [done |]; split; [done |];
               split; [eassumption |];
               split; [first [ left; eassumption
                             | right; split; [eassumption | reflexivity] ]
                      |];
               split; [eassumption | done] ]).
Qed.

(** X6: a record without the attribute that the action names: [getattr] raises
    [AttributeError] after the lookup, no method is called, and, the
    exception not being a [Conflict] of the record, it leaves the
    dispatcher. *)
Theorem handle_actions_missing_method_raises
    fall_through view_func request args w name obj_id obj :
  method request = "POST" ->
  first_action (POST request) name obj_id ->
  In name allowed_actions ->
  get_by_id list_model obj_id (auth request) = Returns obj ->
  methods obj name = None ->
  Conflict obj (AttributeError name) = false ->
  handle_actions error_message list_model allowed_actions fall_through
    view_func request args w
  = (Raises (AttributeError name),
     {| calls := calls w ++ [GetById obj_id (auth request)];
        messages := messages w |}).
Proof.
  intros Hpost Hfirst Hin Hget Hmeth Hconflict.
  unfold handle_actions. rewrite Hpost, String.eqb_refl.
  unfold bind at 1. rewrite (take_action_allowed _ _ _ _ _ _ _ Hfirst Hin).
  unfold call_get_by_id, call_method, bind, try_except, log, ret, raise.
  by rewrite Hget, Hmeth, Hconflict.
Qed.

End DispatchOutcomes.

Section AllowList.

Context {Args : Type}.
Variable error_message : Exn -> string -> string.
Variable list_model : ListModel.

Implicit Types (view_func : @View Args) (request : HttpRequest)
  (args : Args) (w : World).

(** X7: [allowed_actions] counts as a set: two lists with the same members, in
    whatever order and with whatever repetitions, make the same
    dispatcher. *)
Theorem handle_actions_allowed_actions_as_set
    (l1 l2 : list string) fall_through view_func request args w :
  (forall a, In a l1 <-> In a l2) ->
  handle_actions error_message list_model l1 fall_through
    view_func request args w
  = handle_actions error_message list_model l2 fall_through
      view_func request args w.
Proof.
  intros Hsame. unfold handle_actions.
  destruct (String.eqb (method request) "POST"); [| reflexivity].
  unfold bind, take_action.
  destruct (action_items (POST request)) as [| [k v] rest]; [reflexivity |].
  by rewrite (allowed_ext l1 l2 Hsame).
Qed.

(** X8: with an empty [allowed_actions] no POST ever causes a lookup: the
    answer is the redirect, or the view's with [fall_through], in the world
    as it was. *)
Theorem handle_actions_nothing_allowed
    fall_through view_func request args w :
  method request = "POST" ->
  handle_actions error_message list_model [] fall_through
    view_func request args w
  = if fall_through
    then view_func request args w
    else (Returns (redirect (get_full_path request)), w).
Proof.
  intros Hpost. unfold handle_actions. rewrite Hpost, String.eqb_refl.
  unfold bind, take_action.
  destruct (action_items (POST request)) as [| [k v] rest];
    by destruct fall_through.
Qed.

End AllowList.

(** ** The further properties on requests of the tests *)

Lemma handle_actions_default_redirects_any_POST_witness :
  handle_actions Fixtures.error_message (Fixtures.mock_model (Returns tt))
    ["doit"] false Fixtures.view
    (Fixtures.post "/the/url" "" [("other", "thing")] [] None)
    tt empty_world
  = handle_actions Fixtures.error_message (Fixtures.mock_model (Returns tt))
      ["doit"] false (fun _ _ => raise Fixtures.value_error)
      (Fixtures.post "/the/url" "" [("other", "thing")] [] None)
      tt empty_world /\
  (forall response w',
      handle_actions Fixtures.error_message
        (Fixtures.mock_model (Returns tt)) ["doit"] false Fixtures.view
        (Fixtures.post "/the/url" "" [("other", "thing")] [] None)
        tt empty_world = (Returns response, w') ->
      response = redirect "/the/url").
Proof.
  apply (handle_actions_default_redirects_any_POST Fixtures.error_message
           (Fixtures.mock_model (Returns tt)) ["doit"] Fixtures.view
           (fun _ _ => raise Fixtures.value_error)
           (Fixtures.post "/the/url" "" [("other", "thing")] [] None)
           tt empty_world).
  reflexivity.
Defined.

Lemma handle_actions_missing_method_raises_witness :
  handle_actions Fixtures.error_message (Fixtures.mock_model (Returns tt))
    ["doit"; "archive"] false Fixtures.view
    (Fixtures.post "/the/url" "" [("action-archive", "3")] [] None)
    tt empty_world
  = (Raises (AttributeError "archive"),
     {| calls := [GetById "3" Fixtures.the_auth]; messages := [] |}).
Proof.
  apply (handle_actions_missing_method_raises Fixtures.error_message
           (Fixtures.mock_model (Returns tt)) ["doit"; "archive"] false
           Fixtures.view
           (Fixtures.post "/the/url" "" [("action-archive", "3")] [] None)
           tt empty_world "archive" "3" (Fixtures.instance (Returns tt))).
  - reflexivity.
  - exists [], []. split; [reflexivity | constructor].
  - right. left. reflexivity.
  - reflexivity.
  - reflexivity.
  - reflexivity.
Defined.

Lemma handle_actions_allowed_actions_as_set_witness :
  handle_actions Fixtures.error_message (Fixtures.mock_model (Returns tt))
    ["doit"; "archive"] false Fixtures.view
    (Fixtures.post "/the/url" "" [("action-doit", "3")] [] None)
    tt empty_world
  = handle_actions Fixtures.error_message (Fixtures.mock_model (Returns tt))
      ["archive"; "doit"; "doit"] false Fixtures.view
      (Fixtures.post "/the/url" "" [("action-doit", "3")] [] None)
      tt empty_world.
Proof.
  apply (handle_actions_allowed_actions_as_set Fixtures.error_message
           (Fixtures.mock_model (Returns tt))
           ["doit"; "archive"] ["archive"; "doit"; "doit"] false
           Fixtures.view
           (Fixtures.post "/the/url" "" [("action-doit", "3")] [] None)
           tt empty_world).
  intros a. cbn. tauto.
Defined.

Lemma handle_actions_nothing_allowed_witness :
  handle_actions Fixtures.error_message (Fixtures.mock_model (Returns tt))
    [] false Fixtures.view
    (Fixtures.post "/the/url" "" [("action-doit", "3")] [] None)
    tt empty_world
  = (Returns (redirect "/the/url"), empty_world).
Proof.
  apply (handle_actions_nothing_allowed Fixtures.error_message
           (Fixtures.mock_model (Returns tt)) false Fixtures.view
           (Fixtures.post "/the/url" "" [("action-doit", "3")] [] None)
           tt empty_world).
  reflexivity.
Defined.
